(** * Structured Output component of langflow

    A shallow embedding of
    [src/backend/base/langflow/components/helpers/structured_output.py]
    and the properties of [StructuredOutputComponent.build_structured_output].

    The method talks to three things outside its own body: pydantic (classes
    are created at run time and records are dumped to dicts), the language
    model client handed in by the host, and two helpers of the repository
    ([build_model_from_schema], [get_chat_result]).  Every such interaction
    is logged as an [event], class objects carry an identity drawn from an
    allocation counter, and exceptions are values, so that the order of the
    checks, the type bound to the client and the configuration forwarded to
    it can all be stated on a run of the method. *)

From Stdlib Require Import String Ascii List Bool ZArith Arith Lia.
Import ListNotations.
Local Open Scope string_scope.
Local Open Scope list_scope.

Set Implicit Arguments.
Local Set Warnings "-register-all".

(** ** Python data *)

(** Type annotations of pydantic fields, and the classes [create_model]
    makes.  [ASeq a] is [list[a]]; [AList] and [ADict] are the bare [list]
    and [dict].  A class has an identity ([cls_id], the address of the class
    object), a name and its fields in declaration order. *)
Inductive annotation : Type :=
| AStr
| AInt
| AFloat
| ABool
| AList
| ADict
| ASeq (elem : annotation)
| AModel (m : model_type)
with model_type : Type :=
| Model (id : nat) (name : string) (fields : list (string * field_info))
with field_info : Type :=
| FieldInfo (ann : annotation) (description : string).

Definition cls_id (m : model_type) : nat :=
  match m with Model i _ _ => i end.

Definition cls_name (m : model_type) : string :=
  match m with Model _ n _ => n end.

Definition model_fields (m : model_type) : list (string * field_info) :=
  match m with Model _ _ fs => fs end.

(** Python values.  A dict is an association list in insertion order; a
    float is kept as mantissa and binary exponent (no arithmetic is done on
    it); [VModel c attrs] is an instance of the pydantic class [c] with its
    field values; [VObj h] is an opaque object of the host, such as a
    callback handler. *)
Inductive pyval : Type :=
| VNone
| VBool (b : bool)
| VInt (z : Z)
| VFloat (mantissa exponent : Z)
| VStr (s : string)
| VList (items : list pyval)
| VDict (entries : list (string * pyval))
| VModel (cls : model_type) (attrs : list (string * pyval))
| VObj (handle : nat).

Definition dict : Type := list (string * pyval).

Definition keys {V : Type} (d : list (string * V)) : list string := map fst d.

(** [d[k] = v] on an insertion-ordered mapping: an existing key keeps its
    place and takes the new value, a new key goes last. *)
Fixpoint dict_set {V : Type} (k : string) (v : V) (d : list (string * V))
  : list (string * V) :=
  match d with
  | [] => [(k, v)]
  | (k', v') :: d' =>
      if String.eqb k k' then (k, v) :: d' else (k', v') :: dict_set k v d'
  end.

Fixpoint dict_get {V : Type} (k : string) (d : list (string * V)) : option V :=
  match d with
  | [] => None
  | (k', v) :: d' => if String.eqb k k' then Some v else dict_get k d'
  end.

(** Exceptions: the two builtin classes the method raises, and any other
    class by name (what a client or pydantic may raise). *)
Inductive exception : Type :=
| TypeError (msg : string)
| ValueError (msg : string)
| OtherError (cls msg : string).

(** ** Interactions and the monad of a run *)

Definition config : Type := dict.

(** What a run does outside its own body, in order. *)
Inductive event : Type :=
| EvCreateModel (cls : model_type)
    (* pydantic.create_model returned the class [cls] *)
| EvBind (schema : model_type) (method : string)
    (* llm.with_structured_output(schema=..., method=...) was called *)
| EvInvoke (input_value : string) (cfg : config) (res : exception + pyval).
    (* the model invocation: the bound runnable was run on [input_value]
       under [cfg] and gave [res] *)

(** The outcome of a computation started with allocation counter [n]: the
    counter afterwards, the events it emitted, and an exception or a value. *)
Record outcome (A : Type) : Type := Outcome {
  next : nat;
  events : list event;
  result : exception + A
}.

Definition M (A : Type) : Type := nat -> outcome A.

Definition ret {A : Type} (a : A) : M A :=
  fun n => Outcome n [] (inr a).

Definition raise {A : Type} (e : exception) : M A :=
  fun n => Outcome n [] (inl e).

Definition bind {A B : Type} (c : M A) (k : A -> M B) : M B :=
  fun n =>
    let o := c n in
    match result o with
    | inl e => Outcome (next o) (events o) (inl e)
    | inr a =>
        let o' := k a (next o) in
        Outcome (next o') (events o ++ events o') (result o')
    end.

Definition emit (e : event) : M unit :=
  fun n => Outcome n [e] (inr tt).

Definition fresh_id : M nat :=
  fun n => Outcome (S n) [] (inr n).

Definition lift {A : Type} (r : exception + A) : M A :=
  fun n => Outcome n [] r.

Declare Scope py_scope.
Delimit Scope py_scope with py.
Notation "x <- c ;; k" := (bind c (fun x => k))
  (at level 61, c at next level, right associativity) : py_scope.
Notation "c ;;; k" := (bind c (fun _ => k))
  (at level 61, right associativity) : py_scope.
Local Open Scope py_scope.

(** ** pydantic *)

(** A class name holding a NUL character: CPython's [type()] refuses it. *)
Fixpoint has_nul (s : string) : bool :=
  match s with
  | EmptyString => false
  | String c s' => Ascii.eqb c Ascii.zero || has_nul s'
  end.

(** A field name pydantic refuses: one with a leading underscore. *)
Definition refused_field_name (k : string) : bool :=
  match k with
  | String c _ => Ascii.eqb c "_"%char
  | EmptyString => false
  end.

(** What makes [create_model] raise, if anything.  pydantic's metaclass
    looks at the fields first and raises a [NameError] on a refused name
    (its message is pydantic's; the offending name stands for it here);
    then [type()] raises a [ValueError] on a class name holding a NUL.
    Some versions of pydantic refuse further field names (members of its
    own "model_" namespace), which are not listed here. *)
Definition class_error (name : string) (fields : list (string * field_info))
  : option exception :=
  match find (fun kf => refused_field_name (fst kf)) fields with
  | Some (k, _) => Some (OtherError "NameError" k)
  | None =>
      if has_nul name
      then Some (ValueError "type name must not contain null characters")
      else None
  end.

(** [pydantic.create_model(name, **fields)]: a new class object each call,
    or an error and no class. *)
Definition create_model (name : string) (fields : list (string * field_info))
  : M model_type :=
  match class_error name fields with
  | Some e => raise e
  | None =>
      i <- fresh_id ;;
      let cls := Model i name fields in
      emit (EvCreateModel cls) ;;;
      ret cls
  end.

(** [isinstance(v, BaseModel)]. *)
Definition is_BaseModel (v : pyval) : bool :=
  match v with
  | VModel _ _ => true
  | _ => false
  end.

(** [BaseModel.model_dump()]: the fields of the instance as a dict, nested
    instances dumped in turn, through lists and dicts. *)
Fixpoint dump_value (v : pyval) : pyval :=
  match v with
  | VList items => VList (map dump_value items)
  | VDict entries => VDict (map (fun '(k, x) => (k, dump_value x)) entries)
  | VModel _ attrs => VDict (map (fun '(k, x) => (k, dump_value x)) attrs)
  | _ => v
  end.

Definition model_dump (v : pyval) : dict :=
  match v with
  | VModel _ attrs => map (fun '(k, x) => (k, dump_value x)) attrs
  | _ => []
  end.

(** What pydantic guarantees of a validated instance: [instance_of m v] says
    that [v] is an instance of the class [m] (the same class object) holding
    one value per field of [m], in field order, each of the field's type. *)
Fixpoint conforms (a : annotation) (v : pyval) {struct a} : bool :=
  match a with
  | AStr => match v with VStr _ => true | _ => false end
  | AInt => match v with VInt _ => true | _ => false end
  | AFloat => match v with VFloat _ _ => true | _ => false end
  | ABool => match v with VBool _ => true | _ => false end
  | AList => match v with VList _ => true | _ => false end
  | ADict => match v with VDict _ => true | _ => false end
  | ASeq elem => match v with VList items => forallb (conforms elem) items | _ => false end
  | AModel m => instance_of m v
  end
with instance_of (m : model_type) (v : pyval) {struct m} : bool :=
  match m with
  | Model i _ fields =>
      match v with
      | VModel c attrs =>
          Nat.eqb (cls_id c) i &&
          (fix go (fs : list (string * field_info)) (d : dict) : bool :=
             match fs, d with
             | [], [] => true
             | (k, f) :: fs', (k', x) :: d' =>
                 String.eqb k k' && field_conforms f x && go fs' d'
             | _, _ => false
             end) fields attrs
      | _ => false
      end
  end
with field_conforms (f : field_info) (v : pyval) {struct f} : bool :=
  match f with
  | FieldInfo a _ => conforms a v
  end.

(** ** The inputs of the component *)

(** A row of the [output_schema] table (the keys of [table_schema]). *)
Module FieldSpec.
Record t : Type := Build {
  name : string;
  description : string;
  type : string;
  multiple : bool
}.
End FieldSpec.

(** What [with_structured_output] hands back: a runnable, here the function
    from the input text and the invocation configuration to what the one
    invocation of a run gives, a value or an exception. *)
Definition runnable : Type := string -> config -> exception + pyval.

(** The language model client.  [with_structured_output] is [None] when the
    object has no such attribute; when it has, calling it with a schema and a
    method gives a runnable or raises. *)
Record LanguageModel : Type := {
  with_structured_output : option (model_type -> string -> exception + runnable)
}.

(** [hasattr(llm, "with_structured_output")]. *)
Definition hasattr_with_structured_output (l : LanguageModel) : bool :=
  match with_structured_output l with
  | Some _ => true
  | None => false
  end.

(** [llm.with_structured_output(schema=schema, method=method)]. *)
Definition call_with_structured_output (l : LanguageModel)
    (schema : model_type) (method : string) : M runnable :=
  match with_structured_output l with
  | Some f => emit (EvBind schema method) ;;; lift (f schema method)
  | None =>
      raise (OtherError "AttributeError"
               "object has no attribute 'with_structured_output'")
  end.

(** The node: its inputs ([llm], [input_value], [schema_name],
    [output_schema], [multiple]) and what the host gives it ([display_name],
    and the values its accessors [get_project_name()] and
    [get_langchain_callbacks()] return). *)
Record StructuredOutputComponent : Type := {
  display_name : string;
  llm : LanguageModel;
  input_value : string;
  schema_name : string;
  output_schema : list FieldSpec.t;
  multiple : bool;
  get_project_name : pyval;
  get_langchain_callbacks : pyval
}.

(** [langflow.schema.data.Data]: the record handed to the host, a wrapper of
    a mapping. *)
Record Data : Type := { data : dict }.

(** ** Helpers of the repository that are not among the sources *)

(** Modelled from the spec: part of the Schema Builder below.  Spec 3: the
    declared type is one of a fixed set (string, integer, float, boolean,
    list, mapping), written as the table of the component writes them (str,
    int, float, bool, list, dict). *)
Definition primitive_annotation (type : string) : option annotation :=
  if String.eqb type "str" then Some AStr
  else if String.eqb type "int" then Some AInt
  else if String.eqb type "float" then Some AFloat
  else if String.eqb type "bool" then Some ABool
  else if String.eqb type "list" then Some AList
  else if String.eqb type "dict" then Some ADict
  else None.

(** Modelled from the spec: part of the Schema Builder below.  Spec 4.1: a
    member is typed per the declared primitive or, when [multiple] is true,
    as a sequence of that primitive; an unsupported declared type fails. *)
Definition get_type_annotation (type : string) (multiple : bool)
  : exception + annotation :=
  match primitive_annotation type with
  | Some a => inr (if multiple then ASeq a else a)
  | None => inl (ValueError ("Unsupported type: " ++ type))
  end.

(** Modelled from the spec: part of the Schema Builder below.  The members
    of the record type, one per row in order, keyed by the row's name and
    carrying the row's description. *)
Fixpoint schema_fields (schema : list FieldSpec.t)
    (fields : list (string * field_info))
  : exception + list (string * field_info) :=
  match schema with
  | [] => inr fields
  | field :: rest =>
      match get_type_annotation (FieldSpec.type field) (FieldSpec.multiple field) with
      | inl e => inl e
      | inr a =>
          schema_fields rest
            (dict_set (FieldSpec.name field)
                      (FieldInfo a (FieldSpec.description field)) fields)
      end
  end.

(** Modelled from the spec: [build_model_from_schema] of
    [langflow.helpers.base_model] is imported by the component and its source
    is missing.  Spec 4.1 (Schema Builder): from an ordered sequence of Field
    Specifications, a record type whose members are named per Field
    Specification, typed per the declared primitive (or, when [multiple] is
    true, a sequence of that primitive), each carrying the given description;
    an unsupported declared type fails with a descriptive error; no side
    effect, a type freshly constructed each call.  The spec names neither the
    class of that error nor the record type: [ValueError] and ["OutputModel"]
    stand for them, and no general statement below depends on either.
    Members are held in a mapping keyed by name, as pydantic holds them, so a
    repeated name (which the spec rules out) keeps one member; and the type
    is made by [create_model], so a member name that pydantic refuses makes
    the builder fail with pydantic's error. *)
Definition build_model_from_schema (schema : list FieldSpec.t) : M model_type :=
  fields <- lift (schema_fields schema []) ;;
  create_model "OutputModel" fields.

(** Modelled from the spec: [get_chat_result] of
    [langflow.base.models.chat_result] is imported by the component and its
    source is missing.  Spec 4.3 (Model Invocation): the runnable is invoked
    with the given input text, the invocation carrying the configuration;
    the result is what the client returns, or the client's failure
    propagated. *)
Definition get_chat_result (r : runnable) (input_value : string) (cfg : config)
  : M pyval :=
  let res := r input_value cfg in
  emit (EvInvoke input_value cfg res) ;;;
  lift res.

(** The names the rows of a schema declare. *)
Definition field_names (schema : list FieldSpec.t) : list string :=
  map FieldSpec.name schema.

(** ** The method *)

(** Python's [not l] on a list. *)
Definition not_ {A : Type} (l : list A) : bool :=
  match l with
  | [] => true
  | _ :: _ => false
  end.

(** [StructuredOutputComponent.build_structured_output]
    (structured_output.py, lines 74-104). *)
Definition build_structured_output (self : StructuredOutputComponent) : M Data :=
  if negb (hasattr_with_structured_output (llm self)) then
    raise (TypeError "Language model does not support structured output.")
  else if not_ (output_schema self) then
    raise (ValueError "Output schema cannot be empty")
  else
    _output_model <- build_model_from_schema (output_schema self) ;;
    output_model <-
      (if multiple self then
         create_model (schema_name self)
           [("objects",
             FieldInfo (ASeq (AModel _output_model))
                       ("A list of " ++ schema_name self ++ "."))]
       else ret _output_model) ;;
    llm_with_structured_output <-
      call_with_structured_output (llm self) output_model "json_schema" ;;
    let config_dict :=
      [("run_name", VStr (display_name self));
       ("project_name", get_project_name self);
       ("callbacks", get_langchain_callbacks self)] in
    output <-
      get_chat_result llm_with_structured_output (input_value self) config_dict ;;
    if is_BaseModel output then
      ret {| data := model_dump output |}
    else
      raise (ValueError "Output is not a BaseModel.").

(** ** A client that keeps the structured-decoding contract *)

(** Spec 4.3: the client enforces the target type against the model's raw
    output and raises on mismatch.  [validate_model m raw] is that check on a
    decoded JSON object: every field of [m] must be present with a value of
    its type (no conversion is attempted), keys that [m] does not declare are
    dropped, and the result is an instance of [m]. *)
Fixpoint validate (a : annotation) (raw : pyval) {struct a} : option pyval :=
  match a with
  | AStr => match raw with VStr _ => Some raw | _ => None end
  | AInt => match raw with VInt _ => Some raw | _ => None end
  | AFloat => match raw with VFloat _ _ => Some raw | _ => None end
  | ABool => match raw with VBool _ => Some raw | _ => None end
  | AList => match raw with VList _ => Some raw | _ => None end
  | ADict => match raw with VDict _ => Some raw | _ => None end
  | ASeq elem =>
      match raw with
      | VList items =>
          option_map VList
            ((fix each (l : list pyval) : option (list pyval) :=
                match l with
                | [] => Some []
                | x :: l' =>
                    match validate elem x, each l' with
                    | Some y, Some ys => Some (y :: ys)
                    | _, _ => None
                    end
                end) items)
      | _ => None
      end
  | AModel m => validate_model m raw
  end
with validate_model (m : model_type) (raw : pyval) {struct m} : option pyval :=
  match m with
  | Model _ _ fields =>
      match raw with
      | VDict entries =>
          option_map (VModel m)
            ((fix each (fs : list (string * field_info)) : option dict :=
                match fs with
                | [] => Some []
                | (k, f) :: fs' =>
                    match dict_get k entries with
                    | Some x =>
                        match validate_field f x, each fs' with
                        | Some y, Some ys => Some ((k, y) :: ys)
                        | _, _ => None
                        end
                    | None => None
                    end
                end) fields)
      | _ => None
      end
  end
with validate_field (f : field_info) (raw : pyval) {struct f} : option pyval :=
  match f with
  | FieldInfo a _ => validate a raw
  end.

(** The client: [generate] is the model's decoded raw output for an input
    text; the runnable it binds validates that output against the schema. *)
Definition structured_client (generate : string -> pyval) : LanguageModel :=
  {| with_structured_output :=
       Some (fun schema _ =>
               inr (fun input_value _ =>
                      match validate_model schema (generate input_value) with
                      | Some v => inr v
                      | None =>
                          inl (OtherError "ValidationError"
                                 "output does not match the schema")
                      end)) |}.

(** ** The scenarios of the spec *)

Module Scenario.

(** The schema of the scenarios: title, a str, and year, an int.  The
    scenarios give no descriptions, and no [multiple] for title. *)
Definition book_schema : list FieldSpec.t :=
  [ FieldSpec.Build "title" "" "str" false;
    FieldSpec.Build "year" "" "int" false ].

Definition dune : pyval :=
  VDict [("title", VStr "Dune"); ("year", VInt 1965)].

Definition foundation : pyval :=
  VDict [("title", VStr "Foundation"); ("year", VInt 1951)].

Definition node (l : LanguageModel) (schema : list FieldSpec.t)
    (schema_name : string) (multiple : bool) : StructuredOutputComponent :=
  {| display_name := "Structured Output";
     llm := l;
     input_value := "Name a science fiction novel.";
     schema_name := schema_name;
     output_schema := schema;
     multiple := multiple;
     get_project_name := VStr "Langflow";
     get_langchain_callbacks := VList [VObj 1] |}.

(** multiple = false, the model returns {title: "Dune", year: 1965}. *)
Definition single : StructuredOutputComponent :=
  node (structured_client (fun _ => dune)) book_schema "Book" false.

(** multiple = true, schema_name = "Book", the model returns two books. *)
Definition several : StructuredOutputComponent :=
  node (structured_client
          (fun _ => VDict [("objects", VList [dune; foundation])]))
       book_schema "Book" true.

(** The classes a run on [book_schema] creates from counter 0. *)
Definition book_model : model_type :=
  Model 0 "OutputModel"
    [("title", FieldInfo AStr ""); ("year", FieldInfo AInt "")].

Definition book_list : model_type :=
  Model 1 "Book"
    [("objects", FieldInfo (ASeq (AModel book_model)) "A list of Book.")].

(** A client that breaks the contract: its runnable hands back the raw
    output, validated against nothing. *)
Definition raw_client (generate : string -> pyval) : LanguageModel :=
  {| with_structured_output :=
       Some (fun _ _ => inr (fun input_value _ => inr (generate input_value))) |}.

Definition unvalidated : StructuredOutputComponent :=
  node (raw_client (fun _ => dune)) book_schema "Book" false.

(** multiple = true under an empty schema name. *)
Definition unnamed : StructuredOutputComponent :=
  node (structured_client (fun _ => VDict [("objects", VList [dune])]))
       book_schema "" true.

(** A client without [with_structured_output]. *)
Definition no_capability : LanguageModel :=
  {| with_structured_output := None |}.

(** That client, and an empty Output Schema. *)
Definition no_capability_empty : StructuredOutputComponent :=
  node no_capability [] "Book" false.

(** A capable client, and an empty Output Schema. *)
Definition capable_empty : StructuredOutputComponent :=
  node (structured_client (fun _ => dune)) [] "Book" false.

End Scenario.

(** ** Induction over types *)

(** Induction over annotations, classes and fields together. *)
Section TypeInduction.
Variable P : annotation -> Prop.
Variable Q : model_type -> Prop.
Variable R : field_info -> Prop.
Hypothesis HStr : P AStr.
Hypothesis HInt : P AInt.
Hypothesis HFloat : P AFloat.
Hypothesis HBool : P ABool.
Hypothesis HList : P AList.
Hypothesis HDict : P ADict.
Hypothesis HSeq : forall elem, P elem -> P (ASeq elem).
Hypothesis HModel : forall m, Q m -> P (AModel m).
Hypothesis HClass :
  forall i nm fs, Forall (fun kf => R (snd kf)) fs -> Q (Model i nm fs).
Hypothesis HField : forall a d, P a -> R (FieldInfo a d).

Fixpoint annotation_induction (a : annotation) : P a :=
  match a with
  | AStr => HStr
  | AInt => HInt
  | AFloat => HFloat
  | ABool => HBool
  | AList => HList
  | ADict => HDict
  | ASeq elem => HSeq (annotation_induction elem)
  | AModel m => HModel (model_induction m)
  end
with model_induction (m : model_type) : Q m :=
  match m with
  | Model i nm fs =>
      HClass i nm
        ((fix all (l : list (string * field_info))
            : Forall (fun kf => R (snd kf)) l :=
            match l with
            | [] => Forall_nil _
            | (k, f) :: r => Forall_cons (k, f) (field_induction f) (all r)
            end) fs)
  end
with field_induction (f : field_info) : R f :=
  match f with
  | FieldInfo a d => HField d (annotation_induction a)
  end.
End TypeInduction.

(** The node under another schema name. *)
Definition with_schema_name (s : string) (self : StructuredOutputComponent)
  : StructuredOutputComponent :=
  {| display_name := display_name self;
     llm := llm self;
     input_value := input_value self;
     schema_name := s;
     output_schema := output_schema self;
     multiple := multiple self;
     get_project_name := get_project_name self;
     get_langchain_callbacks := get_langchain_callbacks self |}.

(** ** The paths of a run *)

(** The configuration the method builds (lines 93-97). *)
Definition config_dict (self : StructuredOutputComponent) : config :=
  [("run_name", VStr (display_name self));
   ("project_name", get_project_name self);
   ("callbacks", get_langchain_callbacks self)].

(** The envelope class of lines 84-87, as class object number [i]. *)
Definition envelope (self : StructuredOutputComponent) (i : nat)
    (inner : model_type) : model_type :=
  Model i (schema_name self)
    [("objects",
      FieldInfo (ASeq (AModel inner)) ("A list of " ++ schema_name self ++ "."))].

(** The class bound to the client in a run started at counter [n] whose
    builder gave the members [fs], the classes created on the way, and the
    counter afterwards. *)
Definition target (self : StructuredOutputComponent) (n : nat)
    (fs : list (string * field_info)) : model_type :=
  if multiple self then envelope self (S n) (Model n "OutputModel" fs)
  else Model n "OutputModel" fs.

Definition created (self : StructuredOutputComponent) (n : nat)
    (fs : list (string * field_info)) : list event :=
  EvCreateModel (Model n "OutputModel" fs) ::
  (if multiple self then [EvCreateModel (target self n fs)] else []).

Definition after (self : StructuredOutputComponent) (n : nat) : nat :=
  if multiple self then S (S n) else S n.

(** The members the builder settles on, or the error it ends with: that of
    a row, or that of [create_model] on the members. *)
Definition builder_fields (schema : list FieldSpec.t)
  : exception + list (string * field_info) :=
  match schema_fields schema [] with
  | inl e => inl e
  | inr fs =>
      match class_error "OutputModel" fs with
      | Some e => inl e
      | None => inr fs
      end
  end.

(** The error of the [create_model] call of line 84, if it raises: it is
    made only with [multiple] set, and its one field, [objects], is never
    refused. *)
Definition envelope_error (self : StructuredOutputComponent) : option exception :=
  if multiple self then
    if has_nul (schema_name self)
    then Some (ValueError "type name must not contain null characters")
    else None
  else None.

(** Lines 99-104 on what the invocation gave. *)
Definition normalize (res : exception + pyval) : exception + Data :=
  match res with
  | inl e => inl e
  | inr output =>
      if is_BaseModel output then inr {| data := model_dump output |}
      else inl (ValueError "Output is not a BaseModel.")
  end.

(** An instance holds one attribute per field of its class, in order. *)
Definition attrs_match (fs : list (string * field_info)) (attrs : dict) : Prop :=
  Forall2 (fun kf kx => fst kf = fst kx /\ field_conforms (snd kf) (snd kx) = true)
          fs attrs.

(** ** Values free of records *)

(** [record_free v]: no pydantic instance occurs in [v], at any depth. *)
Fixpoint record_free (v : pyval) : bool :=
  match v with
  | VList items => forallb record_free items
  | VDict entries => forallb (fun '(_, x) => record_free x) entries
  | VModel _ _ => false
  | _ => true
  end.

(** Induction over values, through lists, dicts and the attributes of
    instances. *)
Section ValueInduction.
Variable P : pyval -> Prop.
Hypothesis HNone : P VNone.
Hypothesis HBool : forall b, P (VBool b).
Hypothesis HInt : forall z, P (VInt z).
Hypothesis HFloat : forall m e, P (VFloat m e).
Hypothesis HStr : forall s, P (VStr s).
Hypothesis HList : forall items, Forall P items -> P (VList items).
Hypothesis HDict :
  forall entries, Forall (fun kx => P (snd kx)) entries -> P (VDict entries).
Hypothesis HModel :
  forall c attrs, Forall (fun kx => P (snd kx)) attrs -> P (VModel c attrs).
Hypothesis HObj : forall h, P (VObj h).

Fixpoint value_induction (v : pyval) : P v :=
  match v with
  | VNone => HNone
  | VBool b => HBool b
  | VInt z => HInt z
  | VFloat m e => HFloat m e
  | VStr s => HStr s
  | VList items =>
      HList ((fix all (l : list pyval) : Forall P l :=
                match l with
                | [] => Forall_nil _
                | x :: r => Forall_cons x (value_induction x) (all r)
                end) items)
  | VDict entries =>
      HDict ((fix all (l : dict) : Forall (fun kx => P (snd kx)) l :=
                match l with
                | [] => Forall_nil _
                | (k, x) :: r => Forall_cons (k, x) (value_induction x) (all r)
                end) entries)
  | VModel c attrs =>
      HModel c ((fix all (l : dict) : Forall (fun kx => P (snd kx)) l :=
                   match l with
                   | [] => Forall_nil _
                   | (k, x) :: r => Forall_cons (k, x) (value_induction x) (all r)
                   end) attrs)
  | VObj h => HObj h
  end.
End ValueInduction.

(** ** Clients and nodes that fail *)

Module Faulty.

(** A client whose [with_structured_output] exists and raises, as the
    method of a base class left unimplemented does. *)
Definition unimplemented : LanguageModel :=
  {| with_structured_output :=
       Some (fun _ _ => inl (OtherError "NotImplementedError" "")) |}.

(** A client whose bound runnable raises when invoked. *)
Definition unreachable : LanguageModel :=
  {| with_structured_output :=
       Some (fun _ _ =>
               inr (fun _ _ => inl (OtherError "ConnectionError" "timed out"))) |}.

Definition unbound : StructuredOutputComponent :=
  Scenario.node unimplemented Scenario.book_schema "Book" false.

Definition offline : StructuredOutputComponent :=
  Scenario.node unreachable Scenario.book_schema "Book" true.

(** A schema the builder refuses. *)
Definition dated : StructuredOutputComponent :=
  Scenario.node (structured_client (fun _ => Scenario.dune))
    [FieldSpec.Build "born" "" "date" false] "Book" false.

(** A schema name holding a NUL, with [multiple] set. *)
Definition nul_named : StructuredOutputComponent :=
  Scenario.node (structured_client (fun _ => Scenario.dune))
    Scenario.book_schema (String Ascii.zero "Book") true.

(** [Scenario.single] under another display name, input text, project and
    callbacks. *)
Definition elsewhere : StructuredOutputComponent :=
  {| display_name := "Extractor";
     llm := llm Scenario.single;
     input_value := "Name a novel by Frank Herbert.";
     schema_name := schema_name Scenario.single;
     output_schema := output_schema Scenario.single;
     multiple := multiple Scenario.single;
     get_project_name := VStr "Library";
     get_langchain_callbacks := VList [] |}.

End Faulty.

(** * Properties *)

Unset Implicit Arguments.

(** ** Insertion-ordered mappings *)

Section Dict.
Variable V : Type.
Implicit Types (d : list (string * V)) (k : string) (v : V).

Lemma in_keys_dict_set k v d k' :
  In k' (keys (dict_set k v d)) <-> k' = k \/ In k' (keys d).
Proof.
  induction d as [| [k0 v0] d IH]; simpl.
  - intuition.
  - destruct (String.eqb_spec k k0) as [-> | Hne]; simpl.
    + intuition.
    + rewrite IH. intuition.
Qed.

Lemma NoDup_dict_set k v d :
  NoDup (keys d) -> NoDup (keys (dict_set k v d)).
Proof.
  induction d as [| [k0 v0] d IH]; simpl; intros Hnd.
  - constructor; [intros [] | constructor].
  - inversion Hnd as [| ? ? Hnotin Hnd']; subst.
    destruct (String.eqb_spec k k0) as [-> | Hne]; simpl.
    + constructor; assumption.
    + constructor; [| apply IH; assumption].
      intros Hin. apply in_keys_dict_set in Hin.
      destruct Hin as [Heq | Hin]; [congruence | contradiction].
Qed.

Lemma dict_get_set_same k v d : dict_get k (dict_set k v d) = Some v.
Proof.
  induction d as [| [k0 v0] d IH]; simpl.
  - rewrite String.eqb_refl. reflexivity.
  - destruct (String.eqb_spec k k0) as [-> | Hne]; simpl.
    + rewrite String.eqb_refl. reflexivity.
    + destruct (String.eqb_spec k k0); [contradiction | exact IH].
Qed.
End Dict.

(** ** The Schema Builder *)

Lemma schema_fields_keys schema :
  forall acc fs,
    schema_fields schema acc = inr fs ->
    (forall k, In k (keys fs) <-> In k (keys acc) \/ In k (field_names schema))
    /\ (NoDup (keys acc) -> NoDup (keys fs)).
Proof.
  induction schema as [| field rest IH]; simpl; intros acc fs Hfs.
  - injection Hfs as <-. split; [intuition | trivial].
  - destruct (get_type_annotation _ _) as [e | a]; [discriminate |].
    apply IH in Hfs. destruct Hfs as [Hkeys Hnd]. split.
    + intros k. rewrite Hkeys, in_keys_dict_set. intuition.
    + intros Hacc. apply Hnd, NoDup_dict_set, Hacc.
Qed.

Lemma schema_fields_names schema fs :
  schema_fields schema [] = inr fs ->
  NoDup (keys fs) /\ forall k, In k (keys fs) <-> In k (field_names schema).
Proof.
  intros Hfs. apply schema_fields_keys in Hfs. destruct Hfs as [Hkeys Hnd].
  split; [apply Hnd; constructor |].
  intros k. rewrite Hkeys. simpl. intuition.
Qed.

Example build_book_model :
  build_model_from_schema Scenario.book_schema 0 =
  Outcome 1 [EvCreateModel Scenario.book_model] (inr Scenario.book_model).
Proof. reflexivity. Qed.

Example build_sequence_member :
  result (build_model_from_schema
            [FieldSpec.Build "tags" "Keywords." "str" true] 7) =
  inr (Model 7 "OutputModel" [("tags", FieldInfo (ASeq AStr) "Keywords.")]).
Proof. reflexivity. Qed.

Example build_unsupported_type :
  build_model_from_schema
    [FieldSpec.Build "title" "" "str" false;
     FieldSpec.Build "born" "" "date" false] 0 =
  Outcome 0 [] (inl (ValueError "Unsupported type: date")).
Proof. reflexivity. Qed.

Example build_repeated_name :
  result (build_model_from_schema
            [FieldSpec.Build "year" "" "str" false;
             FieldSpec.Build "title" "" "str" false;
             FieldSpec.Build "year" "" "int" false] 0) =
  inr (Model 0 "OutputModel"
         [("year", FieldInfo AInt ""); ("title", FieldInfo AStr "")]).
Proof. reflexivity. Qed.

Example build_refused_name :
  build_model_from_schema [FieldSpec.Build "_id" "" "int" false] 0 =
  Outcome 0 [] (inl (OtherError "NameError" "_id")).
Proof. reflexivity. Qed.

(** ** Class creation *)

Lemma create_model_run name fields n :
  create_model name fields n =
  match class_error name fields with
  | Some e => Outcome n [] (inl e)
  | None =>
      Outcome (S n) [EvCreateModel (Model n name fields)]
              (inr (Model n name fields))
  end.
Proof.
  unfold create_model. destruct (class_error name fields); reflexivity.
Qed.

(** The one field of the envelope is accepted: only the name can fail. *)
Lemma class_error_envelope self inner :
  multiple self = true ->
  class_error (schema_name self)
    [("objects",
      FieldInfo (ASeq (AModel inner)) ("A list of " ++ schema_name self ++ "."))] =
  envelope_error self.
Proof.
  intros Hm. unfold envelope_error. rewrite Hm. reflexivity.
Qed.

Example create_model_nul_name :
  create_model (String Ascii.zero "Book") [] 3 =
  Outcome 3 [] (inl (ValueError "type name must not contain null characters")).
Proof. reflexivity. Qed.

Lemma builder_fields_inr schema fs :
  builder_fields schema = inr fs -> schema_fields schema [] = inr fs.
Proof.
  unfold builder_fields. destruct (schema_fields schema []) as [e | fs'];
    [discriminate |].
  destruct (class_error "OutputModel" fs'); [discriminate |].
  intros H. injection H as <-. reflexivity.
Qed.

(** The builder allocates one class and does nothing else; when it fails it
    does nothing at all. *)
Lemma build_model_from_schema_run schema n :
  build_model_from_schema schema n =
  match builder_fields schema with
  | inl e => Outcome n [] (inl e)
  | inr fs =>
      Outcome (S n) [EvCreateModel (Model n "OutputModel" fs)]
              (inr (Model n "OutputModel" fs))
  end.
Proof.
  unfold build_model_from_schema, builder_fields, bind, lift. simpl.
  destruct (schema_fields schema []) as [e | fs]; [reflexivity |].
  rewrite create_model_run.
  destruct (class_error "OutputModel" fs); reflexivity.
Qed.

(** ** Instances and their dumps *)

Lemma instance_of_inv i nm fs v :
  instance_of (Model i nm fs) v = true ->
  exists c attrs, v = VModel c attrs /\ cls_id c = i /\ attrs_match fs attrs.
Proof.
  destruct v as [| | | | | | | c attrs |]; simpl; try discriminate.
  intros H. apply andb_true_iff in H. destruct H as [Hid Hgo].
  exists c, attrs. split; [reflexivity |].
  split; [apply Nat.eqb_eq, Hid |].
  revert attrs Hgo.
  induction fs as [| [k f] fs IH]; intros [| [k' x] attrs] Hgo;
    try discriminate.
  - constructor.
  - apply andb_true_iff in Hgo. destruct Hgo as [Hkf Hgo].
    apply andb_true_iff in Hkf. destruct Hkf as [Hk Hf].
    constructor; [| apply IH, Hgo].
    simpl. split; [apply String.eqb_eq, Hk | exact Hf].
Qed.

Lemma attrs_match_keys fs attrs : attrs_match fs attrs -> keys attrs = keys fs.
Proof.
  induction 1 as [| [k f] [k' x] fs attrs [Hk _] _ IH]; simpl.
  - reflexivity.
  - simpl in Hk. rewrite IH, Hk. reflexivity.
Qed.

Lemma keys_dump (attrs : dict) :
  keys (map (fun '(k, x) => (k, dump_value x)) attrs) = keys attrs.
Proof.
  induction attrs as [| [k x] attrs IH]; simpl; [| rewrite IH]; reflexivity.
Qed.

Lemma keys_model_dump c attrs : keys (model_dump (VModel c attrs)) = keys attrs.
Proof. apply keys_dump. Qed.

(** A value of type [list[m]] is a list of instances of [m]. *)
Lemma conforms_seq_model m v :
  conforms (ASeq (AModel m)) v = true ->
  exists records,
    v = VList records /\ forall r, In r records -> instance_of m r = true.
Proof.
  destruct v as [| | | | | records | | |]; simpl; try discriminate.
  intros H. exists records. split; [reflexivity |].
  intros r Hr. rewrite forallb_forall in H. exact (H r Hr).
Qed.

(** The dump of an instance of [m] is a dict keyed by the fields of [m]. *)
Lemma dump_instance i nm fs v :
  instance_of (Model i nm fs) v = true ->
  exists d, dump_value v = VDict d /\ model_dump v = d /\ keys d = keys fs.
Proof.
  intros H. apply instance_of_inv in H.
  destruct H as (c & attrs & -> & _ & Hm).
  eexists. split; [reflexivity |]. split; [reflexivity |].
  rewrite keys_dump. apply attrs_match_keys, Hm.
Qed.

(** ** A run of the method, path by path *)

Lemma build_structured_output_run self n :
  build_structured_output self n =
  match with_structured_output (llm self) with
  | None =>
      Outcome n []
        (inl (TypeError "Language model does not support structured output."))
  | Some f =>
      match output_schema self with
      | [] => Outcome n [] (inl (ValueError "Output schema cannot be empty"))
      | _ :: _ =>
          match builder_fields (output_schema self) with
          | inl e => Outcome n [] (inl e)
          | inr fs =>
              match envelope_error self with
              | Some e =>
                  Outcome (S n) [EvCreateModel (Model n "OutputModel" fs)] (inl e)
              | None =>
                  let bound := EvBind (target self n fs) "json_schema" in
                  match f (target self n fs) "json_schema" with
                  | inl e =>
                      Outcome (after self n) (created self n fs ++ [bound]) (inl e)
                  | inr r =>
                      let res := r (input_value self) (config_dict self) in
                      Outcome (after self n)
                        (created self n fs ++
                           [bound;
                            EvInvoke (input_value self) (config_dict self) res])
                        (normalize res)
                  end
              end
          end
      end
  end.
Proof.
  unfold build_structured_output, hasattr_with_structured_output,
    call_with_structured_output.
  destruct (with_structured_output (llm self)) as [f |]; [| reflexivity].
  destruct (output_schema self) as [| row rows] eqn:Hschema; [reflexivity |].
  cbv beta iota delta [negb not_].
  unfold bind at 1. rewrite build_model_from_schema_run.
  destruct (builder_fields (row :: rows)) as [e | fs]; [reflexivity |].
  cbn [result next events].
  unfold created, after, target, normalize, config_dict.
  destruct (multiple self) eqn:Hm.
  - cbv iota. unfold bind. cbv beta zeta.
    rewrite create_model_run, class_error_envelope by exact Hm.
    destruct (envelope_error self) as [e |]; [reflexivity |].
    unfold envelope. cbn [result next events].
    destruct (f _ "json_schema") as [e | r] eqn:Hf;
      cbv [bind lift emit ret raise get_chat_result next events result app];
      rewrite ?Hf; [reflexivity |]; cbv [next events result app];
      destruct (r (input_value self) _) as [e | output]; [reflexivity |];
      cbv [next events result app];
      destruct (is_BaseModel output); reflexivity.
  - assert (He : envelope_error self = None)
      by (unfold envelope_error; rewrite Hm; reflexivity).
    rewrite He.
    destruct (f _ "json_schema") as [e | r] eqn:Hf;
      cbv [bind lift emit ret raise get_chat_result next events result app];
      rewrite Hf; [reflexivity |]; cbv [next events result app];
      destruct (r (input_value self) _) as [e | output]; [reflexivity |];
      cbv [next events result app];
      destruct (is_BaseModel output); reflexivity.
Qed.

(** An event that a trace of class creations does not hold. *)
Ltac no_such_event :=
  let H := fresh "H" in intros H; simpl in H; intuition discriminate.

(** Enter the path of a run on which the client has its attribute [f], the
    schema is not empty, the builder gave the members [fs] and the envelope,
    if any, was created; the four early exits are closed by [tac]. *)
Tactic Notation "enter_run" "as" ident(f) ident(fs) "by" tactic3(tac) :=
  rewrite build_structured_output_run;
  destruct (with_structured_output (llm _)) as [f |]; [| solve [tac]];
  destruct (output_schema _) as [| ?row ?rows]; [solve [tac] |];
  destruct (builder_fields (_ :: _)) as [? | fs] eqn:?Hfs; [solve [tac] |];
  destruct (envelope_error _) as [? |] eqn:?Henv; [solve [tac] |].

Lemma hasattr_false l :
  hasattr_with_structured_output l = false -> with_structured_output l = None.
Proof.
  unfold hasattr_with_structured_output.
  destruct (with_structured_output l); [discriminate | reflexivity].
Qed.

Lemma hasattr_true l :
  hasattr_with_structured_output l = true ->
  exists f, with_structured_output l = Some f.
Proof.
  unfold hasattr_with_structured_output.
  destruct (with_structured_output l) as [f |]; [eauto | discriminate].
Qed.

(** ** The error checks (lines 75-80) *)

(** C3.  When the language model client has no [with_structured_output]
    attribute, the method raises the capability error (a [TypeError]) at
    once: the run emits no event at all (no class is created, nothing is
    bound to the client, the model is not invoked), and there is no output. *)
Theorem capability_error_before_invocation self n :
  hasattr_with_structured_output (llm self) = false ->
  build_structured_output self n =
  Outcome n []
    (inl (TypeError "Language model does not support structured output.")).
Proof.
  intros Hcap. rewrite build_structured_output_run.
  rewrite (hasattr_false _ Hcap). reflexivity.
Qed.

Lemma capability_error_before_invocation_witness :
  build_structured_output
    (Scenario.node Scenario.no_capability Scenario.book_schema "Book" false) 0 =
  Outcome 0 []
    (inl (TypeError "Language model does not support structured output.")).
Proof.
  apply (capability_error_before_invocation
           (Scenario.node Scenario.no_capability Scenario.book_schema "Book" false) 0).
  reflexivity.
Defined.

(** C4, refuted as stated: with an empty Output Schema and a client that
    lacks the capability, the failure is the capability error, not a
    validation error. *)
Lemma empty_schema_not_always_validation_error :
  output_schema Scenario.no_capability_empty = [] /\
  result (build_structured_output Scenario.no_capability_empty 0) =
    inl (TypeError "Language model does not support structured output.") /\
  forall msg,
    result (build_structured_output Scenario.no_capability_empty 0) <>
    inl (ValueError msg).
Proof.
  split; [reflexivity |]. split; [reflexivity |].
  intros msg. cbn. discriminate.
Qed.

(** C4, amended.  When the Output Schema is empty the method fails before
    any schema synthesis: the run emits no event (no record type is built,
    the model is never invoked) and allocates nothing.  The failure is the
    validation error (a [ValueError]) when the client has the structured
    output capability, and the capability error when it has not. *)
Theorem empty_schema_fails_before_synthesis self n :
  output_schema self = [] ->
  build_structured_output self n =
  Outcome n []
    (inl (if hasattr_with_structured_output (llm self)
          then ValueError "Output schema cannot be empty"
          else TypeError "Language model does not support structured output.")).
Proof.
  intros Hempty. rewrite build_structured_output_run.
  unfold hasattr_with_structured_output.
  destruct (with_structured_output (llm self)); [| reflexivity].
  rewrite Hempty. reflexivity.
Qed.

Lemma empty_schema_fails_before_synthesis_witness :
  build_structured_output Scenario.capable_empty 0 =
  Outcome 0 [] (inl (ValueError "Output schema cannot be empty")).
Proof.
  apply (empty_schema_fails_before_synthesis Scenario.capable_empty 0).
  reflexivity.
Defined.

(** C10.  The capability check comes first.  A client without the
    capability together with an empty Output Schema gives the capability
    error ([TypeError]); the empty-schema error is a [ValueError], raised
    when the schema is empty and the capability check has passed; and no
    [ValueError] at all leaves the method unless that check has passed. *)
Theorem capability_check_precedes_schema_check self n :
  (hasattr_with_structured_output (llm self) = false ->
   output_schema self = [] ->
   result (build_structured_output self n) =
     inl (TypeError "Language model does not support structured output."))
  /\ (hasattr_with_structured_output (llm self) = true ->
      output_schema self = [] ->
      result (build_structured_output self n) =
        inl (ValueError "Output schema cannot be empty"))
  /\ (forall msg,
        result (build_structured_output self n) = inl (ValueError msg) ->
        hasattr_with_structured_output (llm self) = true).
Proof.
  rewrite build_structured_output_run. unfold hasattr_with_structured_output.
  destruct (with_structured_output (llm self)) as [f |].
  - split; [discriminate |]. split; [| reflexivity].
    intros _ ->. reflexivity.
  - split; [reflexivity |]. split; [discriminate |].
    simpl. intros msg H. discriminate H.
Qed.

Lemma capability_check_precedes_schema_check_witness :
  result (build_structured_output Scenario.no_capability_empty 0) =
    inl (TypeError "Language model does not support structured output.")
  /\ result (build_structured_output Scenario.capable_empty 0) =
       inl (ValueError "Output schema cannot be empty").
Proof.
  split.
  - apply (capability_check_precedes_schema_check Scenario.no_capability_empty 0);
      reflexivity.
  - apply (capability_check_precedes_schema_check Scenario.capable_empty 0);
      reflexivity.
Defined.

(** ** What a run binds and invokes *)

Lemma in_created self n fs e :
  In e (created self n fs) -> exists c, e = EvCreateModel c.
Proof.
  unfold created. intros [<- | Hin]; [eauto |].
  destruct (multiple self); [| contradiction].
  destruct Hin as [<- | []]. eauto.
Qed.

(** A binding in the trace: both checks passed, the builder gave its
    members, and what was bound is the target, by "json_schema". *)
Lemma bind_event_inv self n T method :
  In (EvBind T method) (events (build_structured_output self n)) ->
  exists fs,
    hasattr_with_structured_output (llm self) = true /\
    output_schema self <> [] /\
    schema_fields (output_schema self) [] = inr fs /\
    T = target self n fs /\ method = "json_schema" /\
    builder_fields (output_schema self) = inr fs /\
    envelope_error self = None.
Proof.
  unfold hasattr_with_structured_output.
  enter_run as f fs by no_such_event.
  rewrite (builder_fields_inr _ _ Hfs).
  intros Hin. exists fs.
  assert (Hbound : EvBind T method = EvBind (target self n fs) "json_schema").
  { cbv zeta in Hin.
    destruct (f (target self n fs) "json_schema") as [e | r];
      cbn [events] in Hin; apply in_app_or in Hin; destruct Hin as [Hin | Hin];
      try (apply in_created in Hin; destruct Hin as [c Hc]; discriminate Hc);
      simpl in Hin; intuition (try discriminate; congruence). }
  injection Hbound as -> ->.
  repeat split; try reflexivity. discriminate.
Qed.

(** The envelope is created unless [multiple] is set and the schema name
    holds a NUL. *)
Lemma envelope_accepted self :
  (multiple self = true -> has_nul (schema_name self) = false) ->
  envelope_error self = None.
Proof.
  unfold envelope_error. destruct (multiple self); [| reflexivity].
  intros H. rewrite (H eq_refl). reflexivity.
Qed.

(** An invocation in the trace: it is the only one, it got the input text
    and the configuration of the node, it ends the trace, and the result of
    the method is decided by what it gave. *)
Lemma invoke_event_inv self n input cfg res :
  In (EvInvoke input cfg res) (events (build_structured_output self n)) ->
  exists fs,
    input = input_value self /\ cfg = config_dict self /\
    events (build_structured_output self n) =
      created self n fs ++
        [EvBind (target self n fs) "json_schema"; EvInvoke input cfg res] /\
    result (build_structured_output self n) = normalize res.
Proof.
  enter_run as f fs by no_such_event.
  intros Hin. exists fs. cbv zeta in Hin |- *.
  destruct (f (target self n fs) "json_schema") as [e | r];
    cbn [events result] in Hin |- *; apply in_app_or in Hin; destruct Hin as [Hin | Hin];
    try (apply in_created in Hin; destruct Hin as [c Hc]; discriminate Hc);
    simpl in Hin.
  - destruct Hin as [Hin | []]. discriminate Hin.
  - destruct Hin as [Hin | [Hin | []]]; [discriminate Hin |].
    injection Hin as <- <- <-. repeat split; reflexivity.
Qed.

(** The classes a run creates end with the target. *)
Lemma created_classes self n fs :
  exists earlier,
    created self n fs = map EvCreateModel (earlier ++ [target self n fs]).
Proof.
  unfold created, target. destruct (multiple self).
  - exists [Model n "OutputModel" fs]. reflexivity.
  - exists []. reflexivity.
Qed.

(** A run that returns a record went through one binding and one invocation,
    after creating its classes. *)
Lemma success_inv self n d :
  result (build_structured_output self n) = inr d ->
  exists fs output,
    schema_fields (output_schema self) [] = inr fs /\
    events (build_structured_output self n) =
      created self n fs ++
        [EvBind (target self n fs) "json_schema";
         EvInvoke (input_value self) (config_dict self) (inr output)] /\
    is_BaseModel output = true /\ d = {| data := model_dump output |}.
Proof.
  enter_run as f fs by discriminate.
  apply builder_fields_inr in Hfs. rewrite Hfs. cbv zeta.
  destruct (f (target self n fs) "json_schema") as [e | r]; [discriminate |].
  cbn [events result].
  destruct (r (input_value self) (config_dict self)) as [e | output];
    [discriminate |].
  unfold normalize. destruct (is_BaseModel output) eqn:Hbase; [| discriminate].
  intros Hd. injection Hd as <-. exists fs, output.
  repeat split; try reflexivity. exact Hbase.
Qed.

(** ** The Multiplicity Wrapper (lines 83-89) *)

(** The binding does take place once both checks, the builder and the
    creation of the envelope pass. *)
Lemma target_is_bound self n inner :
  hasattr_with_structured_output (llm self) = true ->
  output_schema self <> [] ->
  result (build_model_from_schema (output_schema self) n) = inr inner ->
  (multiple self = true -> has_nul (schema_name self) = false) ->
  In (EvBind (if multiple self then envelope self (S n) inner else inner)
             "json_schema")
     (events (build_structured_output self n)).
Proof.
  intros Hcap Hne Hinner Hname. apply hasattr_true in Hcap. destruct Hcap as [f Hf].
  rewrite build_model_from_schema_run in Hinner.
  rewrite build_structured_output_run, Hf, (envelope_accepted self Hname).
  destruct (output_schema self) as [| row rows]; [contradiction |].
  destruct (builder_fields (row :: rows)) as [e | fs]; [discriminate |].
  injection Hinner as <-. cbv zeta. fold (target self n fs).
  destruct (f (target self n fs) "json_schema"); cbn [events];
    apply in_or_app; right; left; reflexivity.
Qed.

(** C5.  Whatever a run binds to the model client is the target type: with
    the [multiple] flag set, a record type named after [schema_name] whose
    single field [objects] is a sequence of the Runtime Record Type (the
    type the Schema Builder returned) and carries the description
    "A list of {schema_name}."; with the flag unset, the Runtime Record Type
    itself.  And a run does bind that type once both checks and the Schema
    Builder have passed and, with the flag set, the schema name is one that
    Python takes as the name of a class (it holds no NUL). *)
Theorem bound_type_is_target self n :
  (forall T method,
     In (EvBind T method) (events (build_structured_output self n)) ->
     exists inner,
       result (build_model_from_schema (output_schema self) n) = inr inner /\
       (multiple self = true ->
        exists i,
          T = Model i (schema_name self)
                [("objects",
                  FieldInfo (ASeq (AModel inner))
                            ("A list of " ++ schema_name self ++ "."))]) /\
       (multiple self = false -> T = inner))
  /\ (forall inner,
        hasattr_with_structured_output (llm self) = true ->
        output_schema self <> [] ->
        result (build_model_from_schema (output_schema self) n) = inr inner ->
        (multiple self = true -> has_nul (schema_name self) = false) ->
        In (EvBind
              (if multiple self then
                 Model (S n) (schema_name self)
                   [("objects",
                     FieldInfo (ASeq (AModel inner))
                               ("A list of " ++ schema_name self ++ "."))]
               else inner)
              "json_schema")
           (events (build_structured_output self n))).
Proof.
  split.
  - intros T method Hin. apply bind_event_inv in Hin.
    destruct Hin as (fs & _ & _ & _ & -> & _ & Hfs & _).
    exists (Model n "OutputModel" fs).
    rewrite build_model_from_schema_run, Hfs. split; [reflexivity |].
    unfold target, envelope. split; intros ->; [eauto | reflexivity].
  - intros inner Hcap Hne Hinner Hname.
    exact (target_is_bound self n inner Hcap Hne Hinner Hname).
Qed.

Lemma bound_type_is_target_witness :
  (exists inner,
     result (build_model_from_schema (output_schema Scenario.several) 0) = inr inner /\
     (multiple Scenario.several = true ->
      exists i,
        Scenario.book_list =
        Model i (schema_name Scenario.several)
          [("objects",
            FieldInfo (ASeq (AModel inner))
                      ("A list of " ++ schema_name Scenario.several ++ "."))]) /\
     (multiple Scenario.several = false -> Scenario.book_list = inner))
  /\ In (EvBind Scenario.book_list "json_schema")
        (events (build_structured_output Scenario.several 0)).
Proof.
  split.
  - apply (proj1 (bound_type_is_target Scenario.several 0)
                 Scenario.book_list "json_schema").
    vm_compute. right. right. left. reflexivity.
  - apply (proj2 (bound_type_is_target Scenario.several 0) Scenario.book_model).
    + reflexivity.
    + discriminate.
    + reflexivity.
    + intros _. reflexivity.
Defined.

(** With the [multiple] flag set and a name Python takes, the envelope class
    is created on the way. *)
Lemma envelope_is_created self n inner :
  hasattr_with_structured_output (llm self) = true ->
  output_schema self <> [] ->
  result (build_model_from_schema (output_schema self) n) = inr inner ->
  multiple self = true ->
  has_nul (schema_name self) = false ->
  In (EvCreateModel (envelope self (S n) inner))
     (events (build_structured_output self n)).
Proof.
  intros Hcap Hne Hinner Hm Hname. apply hasattr_true in Hcap.
  destruct Hcap as [f Hf].
  rewrite build_model_from_schema_run in Hinner.
  rewrite build_structured_output_run, Hf,
    (envelope_accepted self (fun _ => Hname)).
  destruct (output_schema self) as [| row rows]; [contradiction |].
  destruct (builder_fields (row :: rows)) as [e | fs]; [discriminate |].
  injection Hinner as <-. cbv zeta.
  assert (Hin : forall tl,
             In (EvCreateModel (envelope self (S n) (Model n "OutputModel" fs)))
                (created self n fs ++ tl)).
  { intros tl. apply in_or_app. left. unfold created, target. rewrite Hm.
    right. left. reflexivity. }
  destruct (f (target self n fs) "json_schema"); cbn [events]; apply Hin.
Qed.

(** ** Model Invocation (lines 90-98) *)

(** C7.  A run that returns a record has done three things in order:
    created its classes, the target type last; bound the target type to the
    model client by the "json_schema" method; and invoked the bound runnable
    once, on the input text of the node, with a configuration of exactly
    three entries: the display name of the node as run name, what the
    project-name accessor gave, and what the callback accessor gave. *)
Theorem invocation_forwards_host_context self n d :
  result (build_structured_output self n) = inr d ->
  exists earlier T output,
    events (build_structured_output self n) =
      map EvCreateModel (earlier ++ [T]) ++
        [EvBind T "json_schema";
         EvInvoke (input_value self)
           [("run_name", VStr (display_name self));
            ("project_name", get_project_name self);
            ("callbacks", get_langchain_callbacks self)]
           (inr output)].
Proof.
  intros Hd. apply success_inv in Hd.
  destruct Hd as (fs & output & _ & Hev & _).
  destruct (created_classes self n fs) as [earlier Hcl].
  exists earlier, (target self n fs), output.
  rewrite Hev, Hcl. reflexivity.
Qed.

Lemma invocation_forwards_host_context_witness :
  exists earlier T output,
    events (build_structured_output Scenario.single 0) =
      map EvCreateModel (earlier ++ [T]) ++
        [EvBind T "json_schema";
         EvInvoke "Name a science fiction novel."
           [("run_name", VStr "Structured Output");
            ("project_name", VStr "Langflow");
            ("callbacks", VList [VObj 1])]
           (inr output)].
Proof.
  apply (invocation_forwards_host_context Scenario.single 0
           {| data := [("title", VStr "Dune"); ("year", VInt 1965)] |}).
  reflexivity.
Defined.

(** ** The Result Normalizer (lines 99-104) *)

(** C6.  The method decides on the value the model invocation returned: a
    value that is not a [BaseModel] instance makes it raise
    [ValueError "Output is not a BaseModel."], nothing being made of the
    value; a [BaseModel] instance is returned dumped, as the mapping from
    its field names to their values. *)
Theorem non_record_output_is_rejected self n input cfg output :
  In (EvInvoke input cfg (inr output)) (events (build_structured_output self n)) ->
  result (build_structured_output self n) =
    if is_BaseModel output
    then inr {| data := model_dump output |}
    else inl (ValueError "Output is not a BaseModel.").
Proof.
  intros Hin. apply invoke_event_inv in Hin.
  destruct Hin as (fs & _ & _ & _ & ->). reflexivity.
Qed.

Lemma non_record_output_is_rejected_witness :
  result (build_structured_output Scenario.unvalidated 0) =
    inl (ValueError "Output is not a BaseModel.")
  /\ result (build_structured_output Scenario.single 0) =
       inr {| data := [("title", VStr "Dune"); ("year", VInt 1965)] |}.
Proof.
  split.
  - apply (non_record_output_is_rejected Scenario.unvalidated 0
             "Name a science fiction novel."
             (config_dict Scenario.unvalidated) Scenario.dune).
    vm_compute. right. right. left. reflexivity.
  - apply (non_record_output_is_rejected Scenario.single 0
             "Name a science fiction novel."
             (config_dict Scenario.single)
             (VModel Scenario.book_model
                     [("title", VStr "Dune"); ("year", VInt 1965)])).
    vm_compute. right. right. left. reflexivity.
Defined.

(** The dump of an instance of the target of a run without [multiple]. *)
Lemma single_dump_keys self n fs output :
  multiple self = false ->
  schema_fields (output_schema self) [] = inr fs ->
  instance_of (target self n fs) output = true ->
  is_BaseModel output = true /\
  NoDup (keys (model_dump output)) /\
  forall k, In k (keys (model_dump output)) <-> In k (field_names (output_schema self)).
Proof.
  intros Hsingle Hfs Hinst. unfold target in Hinst. rewrite Hsingle in Hinst.
  apply instance_of_inv in Hinst. destruct Hinst as (c & attrs & -> & _ & Hm).
  apply attrs_match_keys in Hm. apply schema_fields_names in Hfs.
  split; [reflexivity |]. rewrite keys_model_dump, Hm. exact Hfs.
Qed.

(** The dump of an instance of the target of a run with [multiple]. *)
Lemma multiple_dump_shape self n fs output :
  multiple self = true ->
  schema_fields (output_schema self) [] = inr fs ->
  instance_of (target self n fs) output = true ->
  exists c records,
    output = VModel c [("objects", VList records)] /\
    model_dump output = [("objects", VList (map dump_value records))] /\
    Forall (fun item =>
              exists d, item = VDict d /\ NoDup (keys d) /\
                forall k, In k (keys d) <-> In k (field_names (output_schema self)))
           (map dump_value records).
Proof.
  intros Hmultiple Hfs Hinst.
  unfold target, envelope in Hinst. rewrite Hmultiple in Hinst.
  apply instance_of_inv in Hinst. destruct Hinst as (c & attrs & -> & _ & Hm).
  inversion Hm as [| kf [k x] fs' attrs' [Hk Hx] Hrest]; subst.
  inversion Hrest; subst. cbn [fst snd field_conforms] in Hk, Hx. subst k.
  apply conforms_seq_model in Hx. destruct Hx as (records & -> & Hrecords).
  exists c, records. split; [reflexivity |]. split; [reflexivity |].
  apply schema_fields_names in Hfs. destruct Hfs as [Hnd Hkeys].
  apply Forall_forall. intros item Hitem. apply in_map_iff in Hitem.
  destruct Hitem as (record & <- & Hrecord).
  apply Hrecords, dump_instance in Hrecord.
  destruct Hrecord as (d & Hd & _ & Hkd).
  exists d. rewrite Hkd. auto.
Qed.

(** C1.  With a non-empty Output Schema and the [multiple] flag unset, when
    the model invocation returns a validated record, that is an instance of
    the type the run bound to the client, the method returns a mapping whose
    keys are exactly the field names of the Output Schema, each once. *)
Theorem single_output_keys self n T method input cfg output :
  output_schema self <> [] ->
  multiple self = false ->
  In (EvBind T method) (events (build_structured_output self n)) ->
  In (EvInvoke input cfg (inr output)) (events (build_structured_output self n)) ->
  instance_of T output = true ->
  exists d,
    result (build_structured_output self n) = inr {| data := d |} /\
    NoDup (keys d) /\
    forall k, In k (keys d) <-> In k (field_names (output_schema self)).
Proof.
  intros _ Hsingle Hbind Hinvoke Hinst.
  apply bind_event_inv in Hbind. destruct Hbind as (fs & _ & _ & Hfs & -> & _).
  apply invoke_event_inv in Hinvoke. destruct Hinvoke as (_ & _ & _ & _ & ->).
  destruct (single_dump_keys self n fs output Hsingle Hfs Hinst) as (Hbase & Hkeys).
  exists (model_dump output). simpl. rewrite Hbase. split; [reflexivity | exact Hkeys].
Qed.

Lemma single_output_keys_witness :
  exists d,
    result (build_structured_output Scenario.single 0) = inr {| data := d |} /\
    NoDup (keys d) /\
    forall k, In k (keys d) <-> In k (field_names (output_schema Scenario.single)).
Proof.
  apply (single_output_keys Scenario.single 0 Scenario.book_model "json_schema"
           "Name a science fiction novel." (config_dict Scenario.single)
           (VModel Scenario.book_model
                   [("title", VStr "Dune"); ("year", VInt 1965)])).
  - discriminate.
  - reflexivity.
  - vm_compute. right. left. reflexivity.
  - vm_compute. right. right. left. reflexivity.
  - reflexivity.
Defined.

(** The scenario of the spec after C1: fields title and year, the model
    returns {title: "Dune", year: 1965}. *)
Example single_scenario :
  result (build_structured_output Scenario.single 0) =
  inr {| data := [("title", VStr "Dune"); ("year", VInt 1965)] |}.
Proof. reflexivity. Qed.

(** C2.  With a non-empty Output Schema and the [multiple] flag set, when
    the model invocation returns a validated record (an instance of the type
    the run bound to the client), the method returns a mapping with the one
    key [objects]; its value is the sequence of the returned records, in
    their order, each dumped to a mapping whose keys are exactly the field
    names of the Output Schema. *)
Theorem multiple_output_shape self n T method input cfg output :
  output_schema self <> [] ->
  multiple self = true ->
  In (EvBind T method) (events (build_structured_output self n)) ->
  In (EvInvoke input cfg (inr output)) (events (build_structured_output self n)) ->
  instance_of T output = true ->
  exists c records,
    output = VModel c [("objects", VList records)] /\
    result (build_structured_output self n) =
      inr {| data := [("objects", VList (map dump_value records))] |} /\
    Forall (fun item =>
              exists d, item = VDict d /\ NoDup (keys d) /\
                forall k, In k (keys d) <-> In k (field_names (output_schema self)))
           (map dump_value records).
Proof.
  intros _ Hmultiple Hbind Hinvoke Hinst.
  apply bind_event_inv in Hbind. destruct Hbind as (fs & _ & _ & Hfs & -> & _).
  apply invoke_event_inv in Hinvoke. destruct Hinvoke as (_ & _ & _ & _ & ->).
  destruct (multiple_dump_shape self n fs output Hmultiple Hfs Hinst)
    as (c & records & -> & Hdump & Hall).
  exists c, records. split; [reflexivity |]. split; [reflexivity | exact Hall].
Qed.

Lemma multiple_output_shape_witness :
  exists c records,
    VModel Scenario.book_list
      [("objects",
        VList [VModel Scenario.book_model
                 [("title", VStr "Dune"); ("year", VInt 1965)];
               VModel Scenario.book_model
                 [("title", VStr "Foundation"); ("year", VInt 1951)]])] =
    VModel c [("objects", VList records)] /\
    result (build_structured_output Scenario.several 0) =
      inr {| data := [("objects", VList (map dump_value records))] |} /\
    Forall (fun item =>
              exists d, item = VDict d /\ NoDup (keys d) /\
                forall k,
                  In k (keys d) <->
                  In k (field_names (output_schema Scenario.several)))
           (map dump_value records).
Proof.
  apply (multiple_output_shape Scenario.several 0 Scenario.book_list "json_schema"
           "Name a science fiction novel." (config_dict Scenario.several)).
  - discriminate.
  - reflexivity.
  - vm_compute. right. right. left. reflexivity.
  - vm_compute. right. right. right. left. reflexivity.
  - reflexivity.
Defined.

(** The scenario of the spec after C2: the same schema, schema_name "Book",
    the model returns two books. *)
Example multiple_scenario :
  result (build_structured_output Scenario.several 0) =
  inr {| data :=
           [("objects",
             VList [VDict [("title", VStr "Dune"); ("year", VInt 1965)];
                    VDict [("title", VStr "Foundation"); ("year", VInt 1951)]])] |}.
Proof. reflexivity. Qed.

(** ** The schema name *)

(** C9, refuted as stated: under an empty [schema_name] with the [multiple]
    flag set the method does not fail; it creates the envelope class under
    the empty name, binds it to the client and returns a record. *)
Lemma empty_schema_name_is_used :
  schema_name Scenario.unnamed = "" /\
  events (build_structured_output Scenario.unnamed 0) =
    [EvCreateModel Scenario.book_model;
     EvCreateModel
       (Model 1 ""
          [("objects",
            FieldInfo (ASeq (AModel Scenario.book_model)) "A list of .")]);
     EvBind
       (Model 1 ""
          [("objects",
            FieldInfo (ASeq (AModel Scenario.book_model)) "A list of .")])
       "json_schema";
     EvInvoke "Name a science fiction novel."
       (config_dict Scenario.unnamed)
       (inr (VModel
               (Model 1 ""
                  [("objects",
                    FieldInfo (ASeq (AModel Scenario.book_model)) "A list of .")])
               [("objects",
                 VList [VModel Scenario.book_model
                          [("title", VStr "Dune"); ("year", VInt 1965)]])]))] /\
  result (build_structured_output Scenario.unnamed 0) =
    inr {| data :=
             [("objects",
               VList [VDict [("title", VStr "Dune"); ("year", VInt 1965)]])] |}.
Proof. repeat split; reflexivity. Qed.

Lemma build_structured_output_single_name s self n :
  multiple self = false ->
  build_structured_output (with_schema_name s self) n =
  build_structured_output self n.
Proof.
  intros Hsingle. rewrite !build_structured_output_run.
  unfold envelope_error, target, created, after, config_dict. simpl.
  rewrite Hsingle. reflexivity.
Qed.

(** C9, amended.  The schema name is not checked, and an empty one does not
    make the method fail.  Once both checks and the Schema Builder have
    passed, a run under an empty [schema_name] binds its target type to the
    client: with [multiple] set, an envelope class created under the empty
    name, with the description "A list of ."; with [multiple] unset, the
    Runtime Record Type, the schema name not being used at all (the run is
    the same under any other name). *)
Theorem schema_name_is_not_checked self n inner :
  schema_name self = "" ->
  hasattr_with_structured_output (llm self) = true ->
  output_schema self <> [] ->
  result (build_model_from_schema (output_schema self) n) = inr inner ->
  (multiple self = true ->
   let unnamed :=
     Model (S n) ""
       [("objects", FieldInfo (ASeq (AModel inner)) "A list of .")] in
   In (EvCreateModel unnamed) (events (build_structured_output self n)) /\
   In (EvBind unnamed "json_schema") (events (build_structured_output self n)))
  /\ (multiple self = false ->
      In (EvBind inner "json_schema") (events (build_structured_output self n)) /\
      forall s,
        build_structured_output (with_schema_name s self) n =
        build_structured_output self n).
Proof.
  intros Hname Hcap Hne Hinner.
  assert (Hnul : has_nul (schema_name self) = false)
    by (rewrite Hname; reflexivity).
  pose proof (target_is_bound self n inner Hcap Hne Hinner (fun _ => Hnul))
    as Hbound.
  split; intros Hm; rewrite Hm in Hbound.
  - pose proof (envelope_is_created self n inner Hcap Hne Hinner Hm Hnul)
      as Hcreated.
    unfold envelope in Hbound, Hcreated. rewrite Hname in Hbound, Hcreated.
    split; assumption.
  - split; [exact Hbound |].
    intros s. apply build_structured_output_single_name, Hm.
Qed.

Lemma schema_name_is_not_checked_witness :
  (multiple Scenario.unnamed = true ->
   In (EvCreateModel
         (Model 1 ""
            [("objects",
              FieldInfo (ASeq (AModel Scenario.book_model)) "A list of .")]))
      (events (build_structured_output Scenario.unnamed 0)) /\
   In (EvBind
         (Model 1 ""
            [("objects",
              FieldInfo (ASeq (AModel Scenario.book_model)) "A list of .")])
         "json_schema")
      (events (build_structured_output Scenario.unnamed 0)))
  /\ (multiple Scenario.unnamed = false ->
      In (EvBind Scenario.book_model "json_schema")
         (events (build_structured_output Scenario.unnamed 0)) /\
      forall s,
        build_structured_output (with_schema_name s Scenario.unnamed) 0 =
        build_structured_output Scenario.unnamed 0).
Proof.
  apply (schema_name_is_not_checked Scenario.unnamed 0 Scenario.book_model).
  - reflexivity.
  - reflexivity.
  - discriminate.
  - reflexivity.
Defined.

(** ** The contract-keeping client *)

(** What validation lets through is an instance of the type validated
    against. *)
Lemma validate_sound :
  (forall a raw v, validate a raw = Some v -> conforms a v = true) /\
  (forall m raw v, validate_model m raw = Some v -> instance_of m v = true).
Proof.
  assert (Hall : forall a raw v, validate a raw = Some v -> conforms a v = true).
  { apply (annotation_induction
             (fun a => forall raw v, validate a raw = Some v -> conforms a v = true)
             (fun m => forall raw v,
                  validate_model m raw = Some v -> instance_of m v = true)
             (fun f => forall raw v,
                  validate_field f raw = Some v -> field_conforms f v = true)).
    1-6: intros raw v; destruct raw; simpl; try discriminate;
         intros H; injection H as <-; reflexivity.
    - intros elem IH raw v. destruct raw as [| | | | | items | | |];
        simpl; try discriminate.
      match goal with |- option_map VList ?e = _ -> _ => destruct e as [ys |] eqn:Hys end;
        simpl; [| discriminate].
      intros H. injection H as <-. simpl.
      revert ys Hys. induction items as [| x items IHitems]; intros ys Hys.
      + injection Hys as <-. reflexivity.
      + destruct (validate elem x) as [y |] eqn:Hy; [| discriminate].
        match type of Hys with
        | match ?e with _ => _ end = _ => destruct e as [ys' |] eqn:Hys'
        end; [| discriminate].
        injection Hys as <-. simpl.
        rewrite (IH x y Hy), (IHitems ys' eq_refl). reflexivity.
    - intros m IH raw v. simpl. apply IH.
    - intros i nm fs Hfs raw v. destruct raw as [| | | | | | entries | |];
        simpl; try discriminate.
      match goal with |- option_map _ ?e = _ -> _ => destruct e as [attrs |] eqn:Hattrs end;
        simpl; [| discriminate].
      intros H. injection H as <-. simpl. rewrite Nat.eqb_refl. simpl.
      revert attrs Hattrs.
      induction Hfs as [| [k f] fs Hf _ IHfs]; intros attrs Hattrs.
      + injection Hattrs as <-. reflexivity.
      + destruct (dict_get k entries) as [x |]; [| discriminate].
        destruct (validate_field f x) as [y |] eqn:Hy; [| discriminate].
        match type of Hattrs with
        | match ?e with _ => _ end = _ => destruct e as [attrs' |] eqn:Hattrs'
        end; [| discriminate].
        injection Hattrs as <-.
        simpl in Hf. rewrite String.eqb_refl, (Hf x y Hy), (IHfs attrs' eq_refl).
        reflexivity.
    - intros a d IH raw v. simpl. apply IH. }
  split; [exact Hall |].
  intros m raw v H. apply (Hall (AModel m) raw v H).
Qed.

(** Whatever a runnable bound by [structured_client] returns is an instance
    of the schema it was bound to. *)
Lemma structured_client_keeps_contract generate f schema method r input cfg v :
  with_structured_output (structured_client generate) = Some f ->
  f schema method = inr r ->
  r input cfg = inr v ->
  instance_of schema v = true.
Proof.
  intros Hf Hr Hv. injection Hf as <-. injection Hr as <-.
  destruct (validate_model schema (generate input)) as [v' |] eqn:Hval;
    [| discriminate].
  injection Hv as <-. exact (proj2 validate_sound schema _ _ Hval).
Qed.

(** A run on a contract-keeping client that returns a record returns the
    dump of an instance of its target. *)
Lemma structured_client_success generate self n d :
  llm self = structured_client generate ->
  result (build_structured_output self n) = inr d ->
  exists fs output,
    schema_fields (output_schema self) [] = inr fs /\
    instance_of (target self n fs) output = true /\
    d = {| data := model_dump output |}.
Proof.
  intros Hllm. rewrite build_structured_output_run, Hllm.
  cbn [with_structured_output structured_client].
  destruct (output_schema self) as [| row rows]; [discriminate |].
  destruct (builder_fields (row :: rows)) as [e | fs] eqn:Hfs; [discriminate |].
  rewrite (builder_fields_inr _ _ Hfs).
  destruct (envelope_error self); [discriminate |].
  cbv zeta. cbn [result].
  destruct (validate_model (target self n fs) (generate (input_value self)))
    as [output |] eqn:Hval; [| discriminate].
  apply (proj2 validate_sound) in Hval. unfold normalize.
  destruct (is_BaseModel output); [| discriminate].
  intros Hd. injection Hd as <-. exists fs, output. auto.
Qed.

(** On such a client the two shapes of the output need no assumption on
    what the model returned. *)
Lemma structured_client_output generate self n d :
  llm self = structured_client generate ->
  result (build_structured_output self n) = inr d ->
  if multiple self then
    exists items,
      data d = [("objects", VList items)] /\
      Forall (fun item =>
                exists r, item = VDict r /\ NoDup (keys r) /\
                  forall k, In k (keys r) <-> In k (field_names (output_schema self)))
             items
  else
    NoDup (keys (data d)) /\
    forall k, In k (keys (data d)) <-> In k (field_names (output_schema self)).
Proof.
  intros Hllm Hd.
  destruct (structured_client_success generate self n d Hllm Hd)
    as (fs & output & Hfs & Hinst & ->).
  destruct (multiple self) eqn:Hm.
  - destruct (multiple_dump_shape self n fs output Hm Hfs Hinst)
      as (c & records & _ & Hdump & Hall).
    exists (map dump_value records). split; [exact Hdump | exact Hall].
  - apply (single_dump_keys self n fs output Hm Hfs Hinst).
Qed.

(** * Further properties of the method *)

(** ** Failures of the helpers and of the client (lines 82, 90-92, 98) *)

(** X1.  The call of the Schema Builder is not guarded: when both checks
    have passed and the builder fails, the method fails with the builder's
    error, and nothing is bound to the client nor is the model invoked. *)
Theorem builder_error_propagates self n e :
  hasattr_with_structured_output (llm self) = true ->
  output_schema self <> [] ->
  result (build_model_from_schema (output_schema self) n) = inl e ->
  result (build_structured_output self n) = inl e /\
  (forall T method,
      ~ In (EvBind T method) (events (build_structured_output self n))) /\
  (forall input cfg res,
      ~ In (EvInvoke input cfg res) (events (build_structured_output self n))).
Proof.
  intros Hcap Hne Hbuild. apply hasattr_true in Hcap. destruct Hcap as [f Hf].
  rewrite build_model_from_schema_run in Hbuild.
  rewrite build_structured_output_run, Hf.
  destruct (output_schema self) as [| row rows]; [contradiction |].
  destruct (builder_fields (row :: rows)) as [e' | fs]; [| discriminate].
  injection Hbuild as ->. cbn [result events].
  repeat split; intros; intros [].
Qed.

Lemma builder_error_propagates_witness :
  result (build_structured_output Faulty.dated 0) =
    inl (ValueError "Unsupported type: date") /\
  (forall T method,
      ~ In (EvBind T method) (events (build_structured_output Faulty.dated 0))) /\
  (forall input cfg res,
      ~ In (EvInvoke input cfg res)
           (events (build_structured_output Faulty.dated 0))).
Proof.
  apply (builder_error_propagates Faulty.dated 0).
  - reflexivity.
  - discriminate.
  - reflexivity.
Defined.

(** X2.  The call of [with_structured_output] is not guarded: when it
    raises, the method fails with that very error and the model is never
    invoked. *)
Theorem binding_error_propagates self n f T method e :
  with_structured_output (llm self) = Some f ->
  In (EvBind T method) (events (build_structured_output self n)) ->
  f T method = inl e ->
  result (build_structured_output self n) = inl e /\
  forall input cfg res,
    ~ In (EvInvoke input cfg res) (events (build_structured_output self n)).
Proof.
  intros Hf Hbind Hraise.
  pose proof (bind_event_inv self n T method Hbind)
    as (fs & _ & Hne & _ & -> & -> & Hfs & Henv).
  rewrite build_structured_output_run, Hf, Henv.
  destruct (output_schema self) as [| row rows]; [contradiction |].
  rewrite Hfs. cbv zeta. rewrite Hraise. cbn [result events].
  split; [reflexivity |].
  intros input cfg res Hin. apply in_app_or in Hin. destruct Hin as [Hin | Hin].
  - apply in_created in Hin. destruct Hin as [c Hc]. discriminate Hc.
  - destruct Hin as [Hin | []]. discriminate Hin.
Qed.

Lemma binding_error_propagates_witness :
  result (build_structured_output Faulty.unbound 0) =
    inl (OtherError "NotImplementedError" "") /\
  forall input cfg res,
    ~ In (EvInvoke input cfg res)
         (events (build_structured_output Faulty.unbound 0)).
Proof.
  apply (binding_error_propagates Faulty.unbound 0
           (fun _ _ => inl (OtherError "NotImplementedError" ""))
           Scenario.book_model "json_schema").
  - reflexivity.
  - vm_compute. right. left. reflexivity.
  - reflexivity.
Defined.

(** X3.  A failure of the model invocation leaves the method as it is: the
    error the invocation raised is the error of the method, not wrapped and
    not replaced by the method's own [ValueError]. *)
Theorem invocation_error_propagates self n input cfg e :
  In (EvInvoke input cfg (inl e)) (events (build_structured_output self n)) ->
  result (build_structured_output self n) = inl e.
Proof.
  intros Hin. apply invoke_event_inv in Hin.
  destruct Hin as (fs & _ & _ & _ & ->). reflexivity.
Qed.

Lemma invocation_error_propagates_witness :
  result (build_structured_output Faulty.offline 0) =
  inl (OtherError "ConnectionError" "timed out").
Proof.
  apply (invocation_error_propagates Faulty.offline 0
           "Name a science fiction novel." (config_dict Faulty.offline)).
  vm_compute. right. right. right. left. reflexivity.
Defined.

(** ** The shape of a run *)

(** X5.  Whatever the inputs, the trace of a run is some class creations, at
    most two, followed by nothing, or by one binding by "json_schema", or by
    that binding and one invocation on the input text of the node with the
    three-entry configuration.  So the method never invokes the model
    without binding a type first, never binds or invokes twice, and does
    nothing after the invocation. *)
Theorem trace_shape self n :
  exists classes tail,
    events (build_structured_output self n) = map EvCreateModel classes ++ tail /\
    length classes <= 2 /\
    (tail = [] \/
     (exists T, tail = [EvBind T "json_schema"]) \/
     (exists T res,
        tail = [EvBind T "json_schema";
                EvInvoke (input_value self)
                  [("run_name", VStr (display_name self));
                   ("project_name", get_project_name self);
                   ("callbacks", get_langchain_callbacks self)]
                  res])).
Proof.
  rewrite build_structured_output_run.
  destruct (with_structured_output (llm self)) as [f |];
    [| exists [], []; simpl; auto].
  destruct (output_schema self) as [| row rows]; [exists [], []; simpl; auto |].
  destruct (builder_fields (row :: rows)) as [e | fs];
    [exists [], []; simpl; auto |].
  destruct (envelope_error self) as [e |];
    [exists [Model n "OutputModel" fs], []; simpl; auto |].
  cbv zeta. destruct (created_classes self n fs) as [earlier Hcl].
  assert (Hlen : length (earlier ++ [target self n fs]) <= 2).
  { assert (Hl : length (created self n fs) <= 2)
      by (unfold created; destruct (multiple self); simpl; lia).
    rewrite Hcl, length_map in Hl. exact Hl. }
  destruct (f (target self n fs) "json_schema") as [e | r]; cbn [events];
    rewrite Hcl; eexists _, _; (split; [reflexivity |]); (split; [exact Hlen |]).
  - right. left. eauto.
  - right. right. eauto.
Qed.

(** ** The record handed to the host (lines 99-104) *)

Lemma dump_entries_record_free (entries : dict) :
  Forall (fun kx => record_free (dump_value (snd kx)) = true) entries ->
  forallb (fun '(_, x) => record_free x)
          (map (fun '(k, x) => (k, dump_value x)) entries) = true.
Proof.
  induction 1 as [| [k x] entries Hx _ IH]; simpl; [reflexivity |].
  simpl in Hx. rewrite Hx, IH. reflexivity.
Qed.

(** A dump holds no instance any more, however deep the instances were. *)
Lemma dump_value_record_free v : record_free (dump_value v) = true.
Proof.
  induction v using value_induction; try reflexivity.
  - simpl. induction H as [| x items Hx _ IH]; simpl; [reflexivity |].
    rewrite Hx, IH. reflexivity.
  - simpl. apply dump_entries_record_free. assumption.
  - simpl. apply dump_entries_record_free. assumption.
Qed.

(** X7.  What the method returns is plain data: no value of the returned
    mapping holds a pydantic instance, at any depth, whatever records the
    model returned and however they were nested (under the envelope, in
    lists, in dicts). *)
Theorem returned_data_is_record_free self n d :
  result (build_structured_output self n) = inr d ->
  forall k x, In (k, x) (data d) -> record_free x = true.
Proof.
  intros Hd k x Hin. apply success_inv in Hd.
  destruct Hd as (fs & output & _ & _ & Hbase & ->).
  destruct output as [| | | | | | | c attrs |]; try discriminate Hbase.
  cbn [data model_dump] in Hin.
  assert (Hall : forallb (fun '(_, y) => record_free y)
                   (map (fun '(k', y) => (k', dump_value y)) attrs) = true).
  { apply dump_entries_record_free, Forall_forall.
    intros kx _. apply dump_value_record_free. }
  rewrite forallb_forall in Hall. exact (Hall (k, x) Hin).
Qed.

Lemma returned_data_is_record_free_witness :
  record_free
    (VList [VDict [("title", VStr "Dune"); ("year", VInt 1965)];
            VDict [("title", VStr "Foundation"); ("year", VInt 1951)]]) = true.
Proof.
  apply (returned_data_is_record_free Scenario.several 0
           {| data :=
                [("objects",
                  VList [VDict [("title", VStr "Dune"); ("year", VInt 1965)];
                         VDict [("title", VStr "Foundation");
                                ("year", VInt 1951)]])] |}
           eq_refl "objects").
  simpl. left. reflexivity.
Defined.

(** ** What the method does not look at (lines 93-98) *)

(** X8.  The display name, the input text, the project name and the
    callbacks only travel to the client.  Two nodes that agree on the
    client, the schema name, the schema and the [multiple] flag, and whose
    bound runnable answers alike to what each node sends it, end alike:
    the same result and the same classes created. *)
Theorem host_context_is_only_forwarded self self' n :
  llm self' = llm self ->
  schema_name self' = schema_name self ->
  output_schema self' = output_schema self ->
  multiple self' = multiple self ->
  (forall f T r,
      with_structured_output (llm self) = Some f ->
      f T "json_schema" = inr r ->
      r (input_value self') (config_dict self') =
      r (input_value self) (config_dict self)) ->
  result (build_structured_output self' n) =
    result (build_structured_output self n) /\
  next (build_structured_output self' n) =
    next (build_structured_output self n) /\
  forall c,
    In (EvCreateModel c) (events (build_structured_output self' n)) <->
    In (EvCreateModel c) (events (build_structured_output self n)).
Proof.
  intros Hllm Hname Hschema Hmultiple Hsame.
  assert (Htarget : forall fs, target self' n fs = target self n fs)
    by (intros fs; unfold target, envelope; rewrite Hname, Hmultiple; reflexivity).
  assert (Hcreated : forall fs, created self' n fs = created self n fs)
    by (intros fs; unfold created; rewrite Htarget, Hmultiple; reflexivity).
  assert (Hafter : after self' n = after self n)
    by (unfold after; rewrite Hmultiple; reflexivity).
  assert (Henv : envelope_error self' = envelope_error self)
    by (unfold envelope_error; rewrite Hname, Hmultiple; reflexivity).
  rewrite !build_structured_output_run, Hllm, Hschema, Henv.
  destruct (with_structured_output (llm self)) as [f |] eqn:Hf;
    [| repeat split; auto].
  destruct (output_schema self) as [| row rows]; [repeat split; auto |].
  destruct (builder_fields (row :: rows)) as [e | fs]; [repeat split; auto |].
  destruct (envelope_error self); [repeat split; auto |].
  cbv zeta. rewrite Htarget, Hcreated, Hafter.
  destruct (f (target self n fs) "json_schema") as [e | r] eqn:Hbind;
    cbn [result next events].
  - repeat split; auto.
  - rewrite (Hsame f (target self n fs) r eq_refl Hbind).
    split; [reflexivity |]. split; [reflexivity |].
    intros c. rewrite !in_app_iff. simpl.
    split; (intros [Hin | [Hin | [Hin | []]]]; [left; exact Hin | discriminate Hin | discriminate Hin]).
Qed.

Lemma host_context_is_only_forwarded_witness :
  result (build_structured_output Faulty.elsewhere 0) =
    result (build_structured_output Scenario.single 0) /\
  next (build_structured_output Faulty.elsewhere 0) =
    next (build_structured_output Scenario.single 0) /\
  forall c,
    In (EvCreateModel c) (events (build_structured_output Faulty.elsewhere 0)) <->
    In (EvCreateModel c) (events (build_structured_output Scenario.single 0)).
Proof.
  apply (host_context_is_only_forwarded Scenario.single Faulty.elsewhere 0).
  - reflexivity.
  - reflexivity.
  - reflexivity.
  - reflexivity.
  - intros f T r Hf Hr. injection Hf as <-. injection Hr as <-. reflexivity.
Defined.

(** ** The classes of a run (lines 82-89) *)

(** X9.  Once both checks and the Schema Builder have passed, the classes a
    run creates are the builder's and, if and only if the [multiple] flag is
    set and the schema name is one Python takes as a class name (it holds no
    NUL), the envelope around the builder's type; this holds whether the
    client then binds, raises or returns anything, so a run with the flag
    unset never creates an envelope. *)
Theorem classes_created self n inner :
  hasattr_with_structured_output (llm self) = true ->
  output_schema self <> [] ->
  result (build_model_from_schema (output_schema self) n) = inr inner ->
  forall c,
    In (EvCreateModel c) (events (build_structured_output self n)) <->
    In (EvCreateModel c)
       (events (build_model_from_schema (output_schema self) n))
    \/ (multiple self = true /\
        has_nul (schema_name self) = false /\
        c = envelope self
              (next (build_model_from_schema (output_schema self) n)) inner).
Proof.
  intros Hcap Hne Hinner c. apply hasattr_true in Hcap. destruct Hcap as [f Hf].
  rewrite build_model_from_schema_run in Hinner |- *.
  rewrite build_structured_output_run, Hf.
  destruct (output_schema self) as [| row rows]; [contradiction |].
  destruct (builder_fields (row :: rows)) as [e | fs]; [discriminate |].
  cbn [result events next] in Hinner |- *. injection Hinner as <-.
  unfold envelope_error.
  destruct (multiple self) eqn:Hm.
  - destruct (has_nul (schema_name self)) eqn:Hnul.
    + simpl. intuition (try congruence).
    + cbv zeta.
      assert (Hcreated :
                In (EvCreateModel c) (created self n fs) <->
                In (EvCreateModel c) [EvCreateModel (Model n "OutputModel" fs)]
                \/ c = envelope self (S n) (Model n "OutputModel" fs)).
      { unfold created, target. rewrite Hm. simpl. intuition (try congruence). }
      destruct (f (target self n fs) "json_schema") as [e | r]; cbn [events];
        rewrite in_app_iff, Hcreated; simpl; intuition (try congruence).
  - cbv zeta.
    assert (Hcreated :
              In (EvCreateModel c) (created self n fs) <->
              In (EvCreateModel c) [EvCreateModel (Model n "OutputModel" fs)]).
    { unfold created. rewrite Hm. simpl. intuition. }
    destruct (f (target self n fs) "json_schema") as [e | r]; cbn [events];
      rewrite in_app_iff, Hcreated; simpl; intuition (try congruence).
Qed.

Lemma classes_created_witness :
  In (EvCreateModel Scenario.book_list)
     (events (build_structured_output Faulty.offline 0)) <->
  In (EvCreateModel Scenario.book_list)
     (events (build_model_from_schema (output_schema Faulty.offline) 0))
  \/ (multiple Faulty.offline = true /\
      has_nul (schema_name Faulty.offline) = false /\
      Scenario.book_list =
      envelope Faulty.offline
        (next (build_model_from_schema (output_schema Faulty.offline) 0))
        Scenario.book_model).
Proof.
  apply (classes_created Faulty.offline 0 Scenario.book_model).
  - reflexivity.
  - discriminate.
  - reflexivity.
Defined.

(** X10.  The call of [create_model] at line 84 is not guarded: with the
    [multiple] flag set and a schema name that holds a NUL, which Python
    refuses as the name of a class, the method fails with the [ValueError]
    of that call once the builder has made its class; nothing is bound to
    the client and the model is not invoked. *)
Theorem envelope_error_propagates self n inner :
  hasattr_with_structured_output (llm self) = true ->
  output_schema self <> [] ->
  result (build_model_from_schema (output_schema self) n) = inr inner ->
  multiple self = true ->
  has_nul (schema_name self) = true ->
  result (build_structured_output self n) =
    inl (ValueError "type name must not contain null characters") /\
  events (build_structured_output self n) =
    events (build_model_from_schema (output_schema self) n).
Proof.
  intros Hcap Hne Hinner Hm Hnul. apply hasattr_true in Hcap.
  destruct Hcap as [f Hf].
  rewrite build_model_from_schema_run in Hinner |- *.
  rewrite build_structured_output_run, Hf.
  destruct (output_schema self) as [| row rows]; [contradiction |].
  destruct (builder_fields (row :: rows)) as [e | fs]; [discriminate |].
  unfold envelope_error. rewrite Hm, Hnul. split; reflexivity.
Qed.

Lemma envelope_error_propagates_witness :
  result (build_structured_output Faulty.nul_named 0) =
    inl (ValueError "type name must not contain null characters") /\
  events (build_structured_output Faulty.nul_named 0) =
    events (build_model_from_schema (output_schema Faulty.nul_named) 0).
Proof.
  apply (envelope_error_propagates Faulty.nul_named 0 Scenario.book_model).
  - reflexivity.
  - discriminate.
  - reflexivity.
  - reflexivity.
  - reflexivity.
Defined.
